(** * OCRmyPDF: the built-in Tesseract plugin

    A shallow embedding of [src/ocrmypdf/builtin_plugins/tesseract_ocr.py]
    (the hooks [add_options], [check_options] and [validate], and the
    methods of [TesseractOcrEngine]) together with the properties its
    specification states about the thread budget and the option check, and
    further properties that the code itself shows. *)

From Stdlib Require Import ZArith NArith String Ascii List Lia Floats.
From Stdlib Require Import DecimalString DecimalPos DecimalZ.
From stdpp Require Import base gmap strings list.

Local Open Scope Z_scope.
Local Open Scope string_scope.
Local Open Scope list_scope.

(** ** The Python built-ins the plugin relies on

    A Python [str] is modelled as a Rocq [string] whose characters are the
    code points U+0000..U+00FF; an [int] is a [Z]. *)

Module Py.

Inductive Exception : Type :=
| ZeroDivisionError
| ValueError
| KeyError
| EngineUnavailable
| EngineVersionTooOld.

Definition code (c : ascii) : N := N_of_ascii c.

(** Characters of Unicode category Nd; below U+0100 these are '0'..'9'. *)
Definition isdecimal_char (c : ascii) : bool :=
  ((48 <=? code c) && (code c <=? 57))%N.

(** Characters with a Unicode numeric value; below U+0100 these are the
    decimal digits, the superscripts U+00B2, U+00B3, U+00B9 and the vulgar
    fractions U+00BC..U+00BE. *)
Definition isnumeric_char (c : ascii) : bool :=
  isdecimal_char c
  || (code c =? 178)%N || (code c =? 179)%N || (code c =? 185)%N
  || ((188 <=? code c) && (code c <=? 190))%N.

Fixpoint all_chars (f : ascii -> bool) (s : string) : bool :=
  match s with
  | EmptyString => true
  | String c r => f c && all_chars f r
  end.

(** [s.isnumeric()]: at least one character, and all of them numeric. *)
Definition isnumeric (s : string) : bool :=
  match s with
  | EmptyString => false
  | String _ _ => all_chars isnumeric_char s
  end.

Definition digit_value (c : ascii) : Z := Z.of_N (code c) - 48.

(** White space that [int] skips around a literal: the ASCII white space
    of the integer parser, and the two non-ASCII spaces below U+0100. *)
Definition int_space (c : ascii) : bool :=
  ((9 <=? code c) && (code c <=? 13) || (code c =? 32)
   || (code c =? 133) || (code c =? 160))%N.

Fixpoint skip_space (s : string) : string :=
  match s with
  | String c r => if int_space c then skip_space r else s
  | EmptyString => s
  end.

(** The digits of a base-10 literal, with single underscores allowed
    between digits. [n] counts the digits seen and [us] records that the
    previous character was an underscore. The result is the value read and
    the rest of the string. *)
Fixpoint scan_digits (s : string) (acc : Z) (n : nat) (us : bool)
  : option (Z * string) :=
  let finish := if us then None else
                match n with O => None | S _ => Some (acc, s) end in
  match s with
  | EmptyString => finish
  | String c r =>
      if isdecimal_char c then
        scan_digits r (10 * acc + digit_value c) (S n) false
      else if (code c =? 95)%N then
        if us then None else
        match n with O => None | S _ => scan_digits r acc n true end
      else finish
  end.

(** The limit of the interpreter on the digits of a decimal literal that
    [int] converts: [sys.get_int_max_str_digits()], which is 4300 unless the
    interpreter is configured otherwise. *)
Definition int_max_str_digits : N := 4300.

(** The number of digits in the run of digits and underscores at the head
    of [s]. *)
Fixpoint literal_digits (s : string) : N :=
  match s with
  | EmptyString => 0%N
  | String c r =>
      if isdecimal_char c then N.succ (literal_digits r)
      else if (code c =? 95)%N then literal_digits r
      else 0%N
  end.

(** [int(s)] for a [str] [s], base 10. A literal with more digits than the
    limit is refused with ValueError. *)
Definition int (s : string) : Exception + Z :=
  let t := skip_space s in
  let '(neg, u) :=
    match t with
    | String "+" r => (false, r)
    | String "-" r => (true, r)
    | _ => (false, t)
    end in
  match scan_digits u 0 O false with
  | Some (v, rest) =>
      if (int_max_str_digits <? literal_digits u)%N then inl ValueError
      else
        match skip_space rest with
        | EmptyString => inr (if neg then - v else v)
        | String _ _ => inl ValueError
        end
  | None => inl ValueError
  end.

(** [str(n)] for an [int] [n]. *)
Definition str (n : Z) : string := NilZero.string_of_int (Z.to_int n).

(** [a // b] on integers: the floor of the quotient. *)
Definition floordiv (a b : Z) : Exception + Z :=
  if Z.eqb b 0 then inl ZeroDivisionError else inr (a / b).

End Py.

(** ** Outcomes and the process state *)

(** What a call does: it returns a value or raises, and in both cases leaves
    a state behind (what was written before a raise stays written). *)
Inductive Outcome (A : Type) : Type :=
| Return (a : A)
| Raise (e : Py.Exception).
Arguments Return {A} a.
Arguments Raise {A} e.

Definition of_sum {A : Type} (r : Py.Exception + A) : Outcome A :=
  match r with
  | inl e => Raise e
  | inr a => Return a
  end.

(** The fields of the [options] namespace that the plugin reads or writes. *)
Record Options : Type := mkOptions {
  pdf_renderer : string;
  jobs : Z;
  languages : list string;
  tesseract_config : list string;
  tesseract_pagesegmode : option Z;
  tesseract_oem : option Z;
  tesseract_thresholding : Z;
  tesseract_timeout : float;
  user_words : option string;
  user_patterns : option string
}.

Definition set_pdf_renderer (r : string) (o : Options) : Options :=
  {| pdf_renderer := r;
     jobs := jobs o;
     languages := languages o;
     tesseract_config := tesseract_config o;
     tesseract_pagesegmode := tesseract_pagesegmode o;
     tesseract_oem := tesseract_oem o;
     tesseract_thresholding := tesseract_thresholding o;
     tesseract_timeout := tesseract_timeout o;
     user_words := user_words o;
     user_patterns := user_patterns o |}.

(** Records of the module logger [log]. *)
Inductive LogRecord : Type :=
| Warning (msg : string)
| Debug (fmt : string) (arg : Z).

(** Modelled from the spec: the probe of the external engine
    ([ocrmypdf._exec.tesseract] and [ocrmypdf.subprocess] are not under
    src/). Section 3 describes its result as a version string, boolean
    feature flags such as "supports configurable thresholding", and
    minimum-version satisfaction. *)
Record EngineCapabilityReport : Type := mkReport {
  version : string;
  supports_thresholding : bool;
  meets_minimum_version : bool
}.

(** The state of the running process: the one [options] object that the
    pipeline hands to every hook, [os.environ], the records logged so far,
    and the engine found on the machine ([None]: the binary cannot be
    located). *)
Record Process : Type := mkProcess {
  options : Options;
  environ : gmap string string;
  log : list LogRecord;
  engine : option EngineCapabilityReport
}.

Definition M (A : Type) : Type := Process -> Outcome A * Process.

Definition ret {A : Type} (a : A) : M A := fun s => (Return a, s).

Definition bind {A B : Type} (m : M A) (k : A -> M B) : M B :=
  fun s =>
    match m s with
    | (Return a, s') => k a s'
    | (Raise e, s') => (Raise e, s')
    end.

Definition raise {A : Type} (e : Py.Exception) : M A := fun s => (Raise e, s).

Definition lift {A : Type} (r : Py.Exception + A) : M A :=
  fun s => (of_sum r, s).

Declare Scope py_scope.
Delimit Scope py_scope with py.
Notation "x <- m ;; k" := (bind m (fun x => k))
  (at level 100, m at next level, right associativity) : py_scope.
Notation "m ;; k" := (bind m (fun _ => k))
  (at level 100, right associativity) : py_scope.
Local Open Scope py_scope.

Definition get_options : M Options := fun s => (Return (options s), s).

Definition set_options (o : Options) : M unit :=
  fun s => (Return tt, {| options := o; environ := environ s;
                          log := log s; engine := engine s |}).

(** [os.environ.get(k, default)] *)
Definition environ_get (k default : string) : M string :=
  fun s => (Return (match environ s !! k with Some v => v | None => default end), s).

(** [os.environ[k]] *)
Definition environ_getitem (k : string) : M string :=
  fun s => (match environ s !! k with Some v => Return v | None => Raise Py.KeyError end, s).

(** [os.environ[k] = v] *)
Definition environ_setitem (k v : string) : M unit :=
  fun s => (Return tt, {| options := options s; environ := <[k := v]> (environ s);
                          log := log s; engine := engine s |}).

Definition log_warning (msg : string) : M unit :=
  fun s => (Return tt, {| options := options s; environ := environ s;
                          log := log s ++ [Warning msg]; engine := engine s |}).

Definition log_debug (fmt : string) (arg : Z) : M unit :=
  fun s => (Return tt, {| options := options s; environ := environ s;
                          log := log s ++ [Debug fmt arg]; engine := engine s |}).

(** ** Collaborators that are not in the plugin's file *)

(** Modelled from the spec: [ocrmypdf.helpers.clamp] is not under src/; the
    spec uses it as [clamp(x, 1, 3)], "clamped to [1, 3]": the value is
    brought into the interval from [smallest] to [largest]. *)
Definition clamp (n smallest largest : Z) : Z :=
  Z.max smallest (Z.min n largest).

(** Modelled from the spec: [check_external_program] (from
    [ocrmypdf.subprocess]) with [tesseract.version] as the version checker
    and the minimum version ['4.1.1']. Section 4.1: the probe "fails with
    EngineUnavailable when the binary cannot be located or
    EngineVersionTooOld when the detected version is below a minimum
    threshold", and has no other effect. *)
Definition check_external_program : M unit :=
  fun s =>
    match engine s with
    | None => (Raise Py.EngineUnavailable, s)
    | Some r =>
        if meets_minimum_version r then (Return tt, s)
        else (Raise Py.EngineVersionTooOld, s)
    end.

(** Modelled from the spec: [tesseract.has_thresholding] (from
    [ocrmypdf._exec.tesseract], not under src/), the capability query "does
    this installed version support configurable thresholding". *)
Definition has_thresholding : M bool :=
  fun s =>
    match engine s with
    | None => (Raise Py.EngineUnavailable, s)
    | Some r => (Return (supports_thresholding r), s)
    end.

(** ** The hooks of the plugin *)

Definition thresholding_warning : string :=
  "The installed version of Tesseract does not support changes to its thresholding method. The --tesseract-threshold argument will be ignored.".

Definition pagesegmode_warning : string :=
  "The --tesseract-pagesegmode argument you select will disable OCR. This may cause processing to fail.".

(** [x in (0, 2)] for the page segmentation mode, which is [None] or an
    integer. *)
Definition in_0_2 (x : option Z) : bool :=
  match x with
  | Some n => Z.eqb n 0 || Z.eqb n 2
  | None => false
  end.

Definition when (b : bool) (m : M unit) : M unit := if b then m else ret tt.

(** [check_options(options)] *)
Definition check_options : M unit :=
  check_external_program ;;
  o <- get_options ;;
  when (String.eqb (pdf_renderer o) "auto")
       (set_options (set_pdf_renderer "sandwich" o)) ;;
  ht <- has_thresholding ;;
  o <- get_options ;;
  when (negb ht && negb (Z.eqb (tesseract_thresholding o) 0))
       (log_warning thresholding_warning) ;;
  o <- get_options ;;
  when (in_0_2 (tesseract_pagesegmode o))
       (log_warning pagesegmode_warning).

Definition OMP_THREAD_LIMIT : string := "OMP_THREAD_LIMIT".

Definition thread_limit_debug : string := "Using Tesseract OpenMP thread limit %d".

(** [validate(pdfinfo, options)]; of [pdfinfo] only its length is used. *)
Definition validate {Page : Type} (pdfinfo : list Page) : M unit :=
  v <- environ_get OMP_THREAD_LIMIT "" ;;
  tess_threads <-
    (if negb (Py.isnumeric v) then
       o <- get_options ;;
       q <- lift (Py.floordiv (jobs o) (Z.of_nat (length pdfinfo))) ;;
       let tess_threads := clamp q 1 3 in
       environ_setitem OMP_THREAD_LIMIT (Py.str tess_threads) ;;
       ret tess_threads
     else
       v <- environ_getitem OMP_THREAD_LIMIT ;;
       lift (Py.int v)) ;;
  log_debug thread_limit_debug tess_threads.

(** Successive validation passes of one process, each with its own
    [pdfinfo]. *)
Fixpoint validate_each {Page : Type} (runs : list (list Page)) : M unit :=
  match runs with
  | [] => ret tt
  | pdfinfo :: later => validate pdfinfo ;; validate_each later
  end.

(** ** [TesseractOcrEngine.generate_hocr] and [generate_pdf] *)

(** The keyword arguments of a call to [tesseract.generate_hocr] or
    [tesseract.generate_pdf]. *)
Module Kw.
Record t : Type := mk {
  input_file : string;
  output : string;
  output_text : string;
  languages : list string;
  engine_mode : option Z;
  tessconfig : list string;
  timeout : float;
  pagesegmode : option Z;
  thresholding : Z;
  user_words : option string;
  user_patterns : option string
}.
End Kw.

Inductive TesseractCall : Type :=
| call_generate_hocr (kw : Kw.t)
| call_generate_pdf (kw : Kw.t).


Definition forwarded (input_file output output_text : string) (o : Options) : Kw.t :=
  {| Kw.input_file := input_file;
     Kw.output := output;
     Kw.output_text := output_text;
     Kw.languages := languages o;
     Kw.engine_mode := tesseract_oem o;
     Kw.tessconfig := tesseract_config o;
     Kw.timeout := tesseract_timeout o;
     Kw.pagesegmode := tesseract_pagesegmode o;
     Kw.thresholding := tesseract_thresholding o;
     Kw.user_words := user_words o;
     Kw.user_patterns := user_patterns o |}.

(** [TesseractOcrEngine.generate_hocr(input_file, output_hocr, output_text,
    options)]: the call it makes. *)
Definition generate_hocr (input_file output_hocr output_text : string)
  (o : Options) : TesseractCall :=
  call_generate_hocr (forwarded input_file output_hocr output_text o).

(** [TesseractOcrEngine.generate_pdf(input_file, output_pdf, output_text,
    options)]: the call it makes. *)
Definition generate_pdf (input_file output_pdf output_text : string)
  (o : Options) : TesseractCall :=
  call_generate_pdf (forwarded input_file output_pdf output_text o).

(** ** Vocabulary of the specification *)

(** The override of the thread budget, if the environment has one. *)
Definition override (s : Process) : option string :=
  environ s !! OMP_THREAD_LIMIT.

(** A valid non-negative integer: a non-empty string of the digits 0 to 9,
    read in base 10. *)
Definition valid_nonneg_integer (v : string) : option Z :=
  option_map Z.of_uint (NilZero.uint_of_string v).

(** The string is short enough for [int]: it has no more characters than
    the interpreter converts digits. *)
Definition within_int_limit (v : string) : bool :=
  (N.of_nat (String.length v) <=? Py.int_max_str_digits)%N.

(** The process-wide thread budget: the published value, read as an
    integer. *)
Definition thread_budget (s : Process) : option Z :=
  match override s with
  | Some v => match Py.int v with inr n => Some n | inl _ => None end
  | None => None
  end.

(** The state after a pass that logged budget [b]. *)
Definition logged (b : Z) (s : Process) : Process :=
  {| options := options s; environ := environ s;
     log := log s ++ [Debug thread_limit_debug b]; engine := engine s |}.

(** The state after a pass that published and logged budget [b]. *)
Definition published (b : Z) (s : Process) : Process :=
  {| options := options s;
     environ := <[OMP_THREAD_LIMIT := Py.str b]> (environ s);
     log := log s ++ [Debug thread_limit_debug b]; engine := engine s |}.

(** The warnings among some log records. *)
Definition warnings (l : list LogRecord) : list string :=
  omap (fun r => match r with Warning m => Some m | Debug _ _ => None end) l.

(** The engine passed the availability and minimum-version check. *)
Definition engine_accepted (s : Process) (r : EngineCapabilityReport) : Prop :=
  engine s = Some r /\ meets_minimum_version r = true.

(** The value of a sequence of decimal digits read after [acc]. *)
Fixpoint read_uint (d : Decimal.uint) (acc : Z) : Z :=
  match d with
  | Decimal.Nil => acc
  | Decimal.D0 l => read_uint l (10 * acc)
  | Decimal.D1 l => read_uint l (10 * acc + 1)
  | Decimal.D2 l => read_uint l (10 * acc + 2)
  | Decimal.D3 l => read_uint l (10 * acc + 3)
  | Decimal.D4 l => read_uint l (10 * acc + 4)
  | Decimal.D5 l => read_uint l (10 * acc + 5)
  | Decimal.D6 l => read_uint l (10 * acc + 6)
  | Decimal.D7 l => read_uint l (10 * acc + 7)
  | Decimal.D8 l => read_uint l (10 * acc + 8)
  | Decimal.D9 l => read_uint l (10 * acc + 9)
  end.

(** The pass fails: it raises instead of returning. *)
Definition fails {A : Type} (r : Outcome A * Process) : Prop :=
  exists e s', r = (Raise e, s').

(** ** Concrete processes *)

(** A document of [n] pages. *)
Definition pages (n : nat) : list unit := replicate n tt.

Definition options_with (w : Z) (psm : option Z) (thresholding : Z) : Options :=
  {| pdf_renderer := "auto";
     jobs := w;
     languages := ["eng"];
     tesseract_config := [];
     tesseract_pagesegmode := psm;
     tesseract_oem := None;
     tesseract_thresholding := thresholding;
     tesseract_timeout := 180%float;
     user_words := None;
     user_patterns := None |}.

(** An engine that meets the minimum version and has no configurable
    thresholding. *)
Definition tesseract_4_1_1 : EngineCapabilityReport :=
  {| version := "4.1.1";
     supports_thresholding := false;
     meets_minimum_version := true |}.

Definition process_with (o : Options) (env : gmap string string) : Process :=
  {| options := o; environ := env; log := []; engine := Some tesseract_4_1_1 |}.

(** A process of [w] workers with no override in its environment. *)
Definition fresh (w : Z) : Process := process_with (options_with w None 0) ∅.

(** A process of [w] workers whose environment sets the override to [v]. *)
Definition overridden (w : Z) (v : string) : Process :=
  process_with (options_with w None 0) {[ OMP_THREAD_LIMIT := v ]}.

(** The digit 1 written [n] times. *)
Fixpoint ones (n : nat) : string :=
  match n with
  | O => EmptyString
  | S n' => String "1" (ones n')
  end.

(** An override of 4301 digits, one more than [int] converts. *)
Definition too_many_digits : string := ones (N.to_nat 4301).

(** How often the warning [m] occurs among some log records. *)
Definition emitted (m : string) (l : list LogRecord) : nat :=
  length (filter (fun x => x = m) (warnings l)).

(** The override U+00B2, superscript two: numeric, but not a decimal
    digit. *)
Definition superscript_two : string := String (ascii_of_nat 178) EmptyString.

(** One step of the option check on a state given field by field. *)
Ltac step_check :=
  cbv beta iota zeta delta
    [options environ log engine pdf_renderer tesseract_thresholding
     tesseract_pagesegmode set_pdf_renderer negb andb].

(** ** The other methods of [TesseractOcrEngine] *)

(** Modelled from the spec: [tesseract.version] (from
    [ocrmypdf._exec.tesseract], not under src/), the version string of the
    probed engine; there is none when the binary cannot be located. *)
Definition tesseract_version : M string :=
  fun s =>
    match engine s with
    | None => (Raise Py.EngineUnavailable, s)
    | Some r => (Return (version r), s)
    end.

(** Calls to [tesseract.get_orientation] and [tesseract.get_deskew], with
    their positional and keyword arguments. *)
Inductive DetectionCall : Type :=
| call_get_orientation (input_file : string)
    (engine_mode : option Z) (timeout : float)
| call_get_deskew (input_file : string) (languages : list string)
    (engine_mode : option Z) (timeout : float).

Module TesseractOcrEngine.

(** [TesseractOcrEngine.version()] *)
Definition version : M string := tesseract_version.

(** [TesseractOcrEngine.creator_tag(options)] *)
Definition creator_tag (o : Options) : M string :=
  let tag := if String.eqb (pdf_renderer o) "sandwich" then "-PDF" else "" in
  v <- version ;;
  ret (String.append "Tesseract OCR"
         (String.append tag (String.append " " v))).

(** [TesseractOcrEngine.__str__(self)] *)
Definition __str__ : M string :=
  v <- version ;;
  ret (String.append "Tesseract OCR " v).

(** [TesseractOcrEngine.get_orientation(input_file, options)]: the call it
    makes. *)
Definition get_orientation (input_file : string) (o : Options) : DetectionCall :=
  call_get_orientation input_file (tesseract_oem o) (tesseract_timeout o).

(** [TesseractOcrEngine.get_deskew(input_file, options)]: the call it
    makes. *)
Definition get_deskew (input_file : string) (o : Options) : DetectionCall :=
  call_get_deskew input_file (languages o) (tesseract_oem o)
    (tesseract_timeout o).

End TesseractOcrEngine.

(** [creator_tag] applied to the options object of the process. *)
Definition creator_tag_of_process : M string :=
  o <- get_options ;; TesseractOcrEngine.creator_tag o.

(** ** [add_options] and the argument parser

    Of [argparse] the hook uses [add_argument_group] and [add_argument]. A
    parser is modelled by its argument groups; every option string of every
    group is registered with the parser, and registering one a second time
    is an [ArgumentError] (the parser's conflict handler is the default,
    'error'). *)
Module Argparse.

Inductive Action : Type := store | append.

(** The [type=] of an argument. [str_to_int] and [numeric] come from
    [ocrmypdf.cli], which is not under src/; they are kept as names. *)
Inductive Conversion : Type :=
| type_absent
| type_int
| type_str_to_int_TESSERACT_THRESHOLDING_METHODS
| type_numeric_float_0.

Inductive Default : Type :=
| default_absent
| default_empty_list
| default_str (s : string)
| default_float (x : float).

Record Argument : Type := mkArgument {
  option_string : string;
  action : option Action;
  type : Conversion;
  metavar : string;
  default : Default;
  choices : option nat;   (* [choices=range(n)] *)
  help : string
}.

Record Group : Type := mkGroup {
  title : string;
  description : string;
  arguments : list Argument
}.

Definition Parser : Type := list Group.

Inductive ArgumentError : Type :=
| conflicting_option_string (flag : string).

(** The option strings registered with the parser. *)
Definition option_strings (p : Parser) : list string :=
  concat (map (fun g => map option_string (arguments g)) p).

Definition registered (flag : string) (p : Parser) : bool :=
  existsb (String.eqb flag) (option_strings p).

(** [parser.add_argument_group(title, description)]: the parser with the
    new group, and the position of the group in it. *)
Definition add_argument_group (title description : string) (p : Parser)
  : Parser * nat :=
  (p ++ [mkGroup title description []], length p).

Fixpoint add_to_group (g : nat) (a : Argument) (p : Parser) : Parser :=
  match p, g with
  | [], _ => []
  | grp :: rest, O =>
      mkGroup (title grp) (description grp) (arguments grp ++ [a]) :: rest
  | grp :: rest, S g' => grp :: add_to_group g' a rest
  end.

(** [group.add_argument(...)] *)
Definition add_argument (g : nat) (a : Argument) (p : Parser)
  : option ArgumentError * Parser :=
  if registered (option_string a) p
  then (Some (conflicting_option_string (option_string a)), p)
  else (None, add_to_group g a p).

(** Calls to [add_argument] one after the other; the first error ends
    them. *)
Fixpoint add_arguments (g : nat) (l : list Argument) (p : Parser)
  : option ArgumentError * Parser :=
  match l with
  | [] => (None, p)
  | a :: rest =>
      match add_argument g a p with
      | (None, p') => add_arguments g rest p'
      | (Some e, p') => (Some e, p')
      end
  end.

End Argparse.

(** The seven arguments of the plugin, in the order of the calls. *)
Definition tesseract_arguments : list Argparse.Argument :=
  [ Argparse.mkArgument "--tesseract-config" (Some Argparse.append)
      Argparse.type_absent "CFG" Argparse.default_empty_list None
      "Additional Tesseract configuration files -- see documentation";
    Argparse.mkArgument "--tesseract-pagesegmode" (Some Argparse.store)
      Argparse.type_int "PSM" Argparse.default_absent (Some 14%nat)
      "Set Tesseract page segmentation mode (see tesseract --help)";
    Argparse.mkArgument "--tesseract-oem" (Some Argparse.store)
      Argparse.type_int "MODE" Argparse.default_absent (Some 4%nat)
      "Set Tesseract 4+ OCR engine mode: 0 - original Tesseract only; 1 - neural nets LSTM only; 2 - Tesseract + LSTM; 3 - default.";
    Argparse.mkArgument "--tesseract-thresholding" (Some Argparse.store)
      Argparse.type_str_to_int_TESSERACT_THRESHOLDING_METHODS "METHOD"
      (Argparse.default_str "auto") None
      "Set Tesseract 5.0+ input image thresholding mode. This may improve OCR results on low quality images or those that contain high contrast color. legacy-otsu is the Tesseract default; adaptive-otsu is an improved Otsu algorithm with improved sort for background color changes; sauvola is based on local standard deviation.";
    Argparse.mkArgument "--tesseract-timeout" None
      Argparse.type_numeric_float_0 "SECONDS"
      (Argparse.default_float 180%float) None
      "Give up on OCR after the timeout, but copy the preprocessed page into the final output";
    Argparse.mkArgument "--user-words" None
      Argparse.type_absent "FILE" Argparse.default_absent None
      "Specify the location of the Tesseract user words file. This is a list of words Tesseract should consider while performing OCR in addition to its standard language dictionaries. This can improve OCR quality especially for specialized and technical documents.";
    Argparse.mkArgument "--user-patterns" None
      Argparse.type_absent "FILE" Argparse.default_absent None
      "Specify the location of the Tesseract user patterns file." ].

(** [add_options(parser)] *)
Definition add_options (parser : Argparse.Parser)
  : option Argparse.ArgumentError * Argparse.Parser :=
  let '(parser, tess) :=
    Argparse.add_argument_group "Tesseract"
      "Advanced control of Tesseract OCR" parser in
  Argparse.add_arguments tess tesseract_arguments parser.

(** The arguments that [add_arguments] registers before it meets an
    option string that parser [p] has already. *)
Fixpoint until_conflict (p : Argparse.Parser) (l : list Argparse.Argument)
  : list Argparse.Argument :=
  match l with
  | [] => []
  | a :: rest =>
      if Argparse.registered (Argparse.option_string a) p then []
      else a :: until_conflict p rest
  end.

(** The group that [add_options] adds when nothing conflicts. *)
Definition tesseract_group : Argparse.Group :=
  Argparse.mkGroup "Tesseract" "Advanced control of Tesseract OCR"
    tesseract_arguments.

(** ** Sanity checks of the built-ins *)

Example int_digits : Py.int "7" = inr 7.
Proof. reflexivity. Qed.

Example int_sign_space_underscore : Py.int " +1_000 " = inr 1000.
Proof. reflexivity. Qed.

Example int_negative : Py.int "-12" = inr (-12).
Proof. reflexivity. Qed.

Example int_double_underscore : Py.int "1__0" = inl Py.ValueError.
Proof. reflexivity. Qed.

Example int_of_float_literal : Py.int "1.5" = inl Py.ValueError.
Proof. reflexivity. Qed.

Example int_digit_limit :
  (exists n, Py.int (ones (N.to_nat 4300)) = inr n)
  /\ Py.int too_many_digits = inl Py.ValueError
  /\ Py.isnumeric too_many_digits = true.
Proof.
  split; [eexists; vm_compute; reflexivity | split; vm_compute; reflexivity].
Qed.

Example str_examples : Py.str 3 = "3" /\ Py.str 0 = "0" /\ Py.str (-42) = "-42".
Proof. repeat split. Qed.

Example isnumeric_examples :
  Py.isnumeric "12" = true /\ Py.isnumeric "" = false /\
  Py.isnumeric "-1" = false /\ Py.isnumeric "1.5" = false /\
  Py.isnumeric "abc" = false.
Proof. repeat split. Qed.

Example floordiv_examples :
  Py.floordiv 4 10 = inr 0 /\ Py.floordiv (-7) 2 = inr (-4) /\
  Py.floordiv 4 0 = inl Py.ZeroDivisionError.
Proof. repeat split. Qed.

Example isnumeric_not_decimal :
  Py.isnumeric superscript_two = true
  /\ Py.int superscript_two = inl Py.ValueError
  /\ validate (pages 1) (overridden 4 superscript_two)
     = (Raise Py.ValueError, overridden 4 superscript_two).
Proof. repeat split. Qed.

(** ** The two branches of [validate] *)

Section Validate.
Context {Page : Type}.
Implicit Types (pdfinfo : list Page) (s : Process).

(** Without a numeric override the budget is computed, published and
    logged, provided the document has a page. *)
Lemma validate_computes pdfinfo s :
  Py.isnumeric (default "" (override s)) = false ->
  length pdfinfo <> 0%nat ->
  validate pdfinfo s =
    (Return tt,
     published (clamp (jobs (options s) / Z.of_nat (length pdfinfo)) 1 3) s).
Proof.
  intros Hnum Hlen.
  unfold validate, bind, environ_get, override in *.
  cbn. unfold default in Hnum.
  destruct (environ s !! OMP_THREAD_LIMIT) as [v|]; cbn in *;
    try rewrite Hnum; cbn; unfold lift, Py.floordiv;
    destruct (Z.eqb_spec (Z.of_nat (length pdfinfo)) 0); try lia; reflexivity.
Qed.

(** Without a numeric override and without pages the division raises, and
    nothing is published or logged. *)
Lemma validate_zero_pages s :
  Py.isnumeric (default "" (override s)) = false ->
  validate (@nil Page) s = (Raise Py.ZeroDivisionError, s).
Proof.
  intros Hnum.
  unfold validate, bind, environ_get, override in *.
  cbn. unfold default in Hnum.
  destruct (environ s !! OMP_THREAD_LIMIT) as [v|]; cbn in *;
    try rewrite Hnum; reflexivity.
Qed.

(** With a numeric override nothing is computed: the value is read with
    [int], and the environment is left as it is. *)
Lemma validate_adopts pdfinfo s v :
  override s = Some v ->
  Py.isnumeric v = true ->
  validate pdfinfo s =
    match Py.int v with
    | inr b => (Return tt, logged b s)
    | inl e => (Raise e, s)
    end.
Proof.
  intros Hov Hnum.
  unfold validate, bind, environ_get, environ_getitem, override in *.
  cbn. rewrite Hov. cbn. rewrite Hnum. cbn. rewrite Hov.
  unfold lift. destruct (Py.int v); reflexivity.
Qed.

End Validate.

(** ** [int], [str] and [isnumeric] on decimal literals *)

Lemma read_uint_pos d p :
  read_uint d (Z.pos p) = Z.pos (Pos.of_uint_acc d p).
Proof.
  revert p. induction d; intros p; cbn [read_uint Pos.of_uint_acc];
    try reflexivity; rewrite <- IHd; f_equal; lia.
Qed.

Lemma read_uint_0 d : read_uint d 0 = Z.of_uint d.
Proof.
  unfold Z.of_uint.
  induction d; cbn; try reflexivity; try exact IHd;
    rewrite <- read_uint_pos; reflexivity.
Qed.

Lemma scan_digits_step c r acc n :
  Py.isdecimal_char c = true ->
  Py.scan_digits (String c r) acc n false
  = Py.scan_digits r (10 * acc + Py.digit_value c) (S n) false.
Proof. intros H. cbn [Py.scan_digits]. rewrite H. reflexivity. Qed.

Lemma scan_digits_uint d acc n :
  d <> Decimal.Nil \/ n <> O ->
  Py.scan_digits (NilEmpty.string_of_uint d) acc n false
  = Some (read_uint d acc, "").
Proof.
  revert acc n.
  induction d; intros acc n Hne; cbn [NilEmpty.string_of_uint read_uint];
    try (rewrite scan_digits_step by reflexivity;
         rewrite IHd by (right; discriminate);
         do 3 f_equal; vm_compute (Py.digit_value _); lia).
  destruct Hne as [H|H]; [congruence|]. destruct n; [congruence|reflexivity].
Qed.

Lemma int_numeric_head (c : ascii) (r : string) :
  Py.isnumeric_char c = true ->
  Py.int (String c r) =
    match Py.scan_digits (String c r) 0 O false with
    | Some (v, rest) =>
        if (Py.int_max_str_digits <? Py.literal_digits (String c r))%N
        then inl Py.ValueError
        else
          match Py.skip_space rest with
          | EmptyString => inr v
          | String _ _ => inl Py.ValueError
          end
    | None => inl Py.ValueError
    end.
Proof.
  destruct c as [[] [] [] [] [] [] [] []]; intros H; try discriminate H;
    reflexivity.
Qed.

Lemma string_of_uint_head d :
  d <> Decimal.Nil ->
  exists c r, NilEmpty.string_of_uint d = String c r
              /\ Py.isdecimal_char c = true.
Proof.
  destruct d; [congruence | ..]; intros _; cbn [NilEmpty.string_of_uint];
    eexists _, _; split; reflexivity.
Qed.

Lemma literal_digits_step (c : ascii) (r : string) :
  Py.isdecimal_char c = true ->
  Py.literal_digits (String c r) = N.succ (Py.literal_digits r).
Proof. intros H. cbn [Py.literal_digits]. rewrite H. reflexivity. Qed.

(** In a string of decimal digits every character counts as a digit of
    the literal. *)
Lemma literal_digits_uint d :
  Py.literal_digits (NilEmpty.string_of_uint d)
  = N.of_nat (String.length (NilEmpty.string_of_uint d)).
Proof.
  induction d; cbn [NilEmpty.string_of_uint String.length];
    try reflexivity;
    rewrite literal_digits_step by reflexivity;
    rewrite IHd, Nat2N.inj_succ; reflexivity.
Qed.

(** [int] on a string of decimal digits: its value when the string is
    within the limit, ValueError when it is longer. *)
Lemma int_string_of_uint d :
  d <> Decimal.Nil ->
  Py.int (NilEmpty.string_of_uint d)
  = if within_int_limit (NilEmpty.string_of_uint d)
    then inr (Z.of_uint d) else inl Py.ValueError.
Proof.
  intros Hne. rewrite <- read_uint_0.
  destruct (string_of_uint_head d Hne) as (c & r & Hs & Hc).
  assert (Py.isnumeric_char c = true) as Hn.
  { unfold Py.isnumeric_char. rewrite Hc. reflexivity. }
  rewrite Hs, (int_numeric_head _ _ Hn), <- Hs.
  rewrite scan_digits_uint by (left; exact Hne).
  rewrite literal_digits_uint. unfold within_int_limit.
  rewrite N.ltb_antisym.
  destruct (N.of_nat (String.length (NilEmpty.string_of_uint d))
            <=? Py.int_max_str_digits)%N; reflexivity.
Qed.

Lemma all_numeric_string_of_uint d :
  Py.all_chars Py.isnumeric_char (NilEmpty.string_of_uint d) = true.
Proof.
  induction d; cbn [NilEmpty.string_of_uint Py.all_chars]; try reflexivity;
    rewrite IHd; reflexivity.
Qed.

Lemma all_decimal_string_of_uint d :
  Py.all_chars Py.isdecimal_char (NilEmpty.string_of_uint d) = true.
Proof.
  induction d; cbn [NilEmpty.string_of_uint Py.all_chars]; try reflexivity;
    rewrite IHd; reflexivity.
Qed.

Lemma isnumeric_string_of_uint d :
  d <> Decimal.Nil ->
  Py.isnumeric (NilEmpty.string_of_uint d) = true.
Proof.
  intros Hne. pose proof (all_numeric_string_of_uint d) as Hall.
  destruct (string_of_uint_head d Hne) as (c & r & Hs & _).
  rewrite Hs in *. exact Hall.
Qed.

Lemma valid_nonneg_integer_digits v n :
  valid_nonneg_integer v = Some n ->
  exists d, d <> Decimal.Nil /\ NilEmpty.string_of_uint d = v
            /\ n = Z.of_uint d.
Proof.
  unfold valid_nonneg_integer. intros H.
  destruct (NilZero.uint_of_string v) as [d|] eqn:Hd; [|discriminate].
  injection H as <-. exists d. split; [|split; [|reflexivity]].
  - intros ->. exact (NilZero.uint_of_string_nonnil v Hd).
  - unfold NilZero.uint_of_string in Hd. destruct v; [discriminate|].
    apply NilEmpty.sus. exact Hd.
Qed.

(** A valid non-negative integer string is numeric, and [int] reads it
    as its value unless it is longer than the limit. *)
Lemma valid_nonneg_integer_spec v n :
  valid_nonneg_integer v = Some n ->
  Py.isnumeric v = true
  /\ Py.int v = (if within_int_limit v then inr n else inl Py.ValueError)
  /\ 0 <= n.
Proof.
  intros H.
  destruct (valid_nonneg_integer_digits v n H) as (d & Hne & <- & ->).
  split; [|split].
  - apply isnumeric_string_of_uint, Hne.
  - apply int_string_of_uint, Hne.
  - unfold Z.of_uint. lia.
Qed.

(** [int] undoes [str] on the integers of one digit, and [str] of such an
    integer is numeric. *)
Lemma int_str n :
  0 <= n <= 9 ->
  Py.isnumeric (Py.str n) = true /\ Py.int (Py.str n) = inr n.
Proof.
  intros Hn. rewrite <- (Z2Nat.id n) by lia.
  assert (Z.to_nat n <= 9)%nat as Hk by lia.
  generalize dependent (Z.to_nat n). intros k Hk.
  do 10 (destruct k as [|k]; [split; vm_compute; reflexivity|]).
  lia.
Qed.

(** ** The thread budget *)

Lemma clamp_1_3 q : 1 <= clamp q 1 3 <= 3.
Proof. unfold clamp. lia. Qed.

Lemma clamp_mono q q' : q <= q' -> clamp q 1 3 <= clamp q' 1 3.
Proof. unfold clamp. lia. Qed.

Lemma override_None_not_numeric s :
  override s = None -> Py.isnumeric (default "" (override s)) = false.
Proof. intros ->. reflexivity. Qed.

(** A pass that returns either adopted a numeric override or computed the
    budget of a document that has a page. *)
Lemma validate_returns_inv {Page : Type} (pdfinfo : list Page) (s s' : Process) :
  validate pdfinfo s = (Return tt, s') ->
  (exists v b, override s = Some v /\ Py.isnumeric v = true
               /\ Py.int v = inr b /\ s' = logged b s)
  \/ (Py.isnumeric (default "" (override s)) = false
      /\ exists b, 1 <= b <= 3 /\ s' = published b s).
Proof.
  intros Hrun.
  destruct (Py.isnumeric (default "" (override s))) eqn:Hnum.
  - left. destruct (override s) as [v|] eqn:Hov; [|discriminate Hnum].
    cbn in Hnum.
    rewrite (validate_adopts pdfinfo s v Hov Hnum) in Hrun.
    destruct (Py.int v) as [e|b] eqn:Hint; [discriminate Hrun|].
    injection Hrun as <-. exists v, b. repeat split; assumption.
  - right. split; [reflexivity|].
    destruct pdfinfo as [|pg pdfinfo].
    { rewrite validate_zero_pages in Hrun by exact Hnum. discriminate Hrun. }
    rewrite validate_computes in Hrun by (exact Hnum || discriminate).
    injection Hrun as <-.
    eexists. split; [apply clamp_1_3 | reflexivity].
Qed.

Lemma override_published b s : override (published b s) = Some (Py.str b).
Proof. unfold override, published. cbn. apply lookup_insert_eq. Qed.

(** C1: for every worker count w >= 1 and page count p >= 1, with no
    override in the environment, the validation pass computes, publishes and
    logs the budget clamp(floor(w / p), 1, 3); w=4, p=1 gives 3, w=4, p=10
    gives 1, and w=8, p=2 gives 3. *)
Theorem C1_budget_is_clamped_quotient :
  (forall (Page : Type) (pdfinfo : list Page) (s : Process),
     1 <= jobs (options s) ->
     (1 <= length pdfinfo)%nat ->
     override s = None ->
     validate pdfinfo s =
       (Return tt,
        published (clamp (jobs (options s) / Z.of_nat (length pdfinfo)) 1 3) s))
  /\ validate (pages 1) (fresh 4) = (Return tt, published 3 (fresh 4))
  /\ validate (pages 10) (fresh 4) = (Return tt, published 1 (fresh 4))
  /\ validate (pages 2) (fresh 8) = (Return tt, published 3 (fresh 8)).
Proof.
  assert (forall (Page : Type) (pdfinfo : list Page) (s : Process),
     1 <= jobs (options s) ->
     (1 <= length pdfinfo)%nat ->
     override s = None ->
     validate pdfinfo s =
       (Return tt,
        published (clamp (jobs (options s) / Z.of_nat (length pdfinfo)) 1 3) s))
    as general.
  { intros Page pdfinfo s _ Hp Hov.
    apply validate_computes; [apply override_None_not_numeric, Hov | lia]. }
  split; [exact general|].
  split; [|split]; vm_compute; reflexivity.
Qed.

Lemma C1_witness :
  validate (pages 3) (fresh 7) = (Return tt, published 2 (fresh 7)).
Proof.
  apply (proj1 C1_budget_is_clamped_quotient unit (pages 3) (fresh 7));
    [cbn; lia | cbn; lia | reflexivity].
Defined.

(** C2: for every page count p >= 1 and worker count w >= 1 the budget
    computed without an override lies between 1 and 3, and for a fixed w
    a document with more pages never gets a larger budget. *)
Theorem C2_budget_bounded_and_antitone
  (Page : Type) (pdfinfo pdfinfo' : list Page) (s s' : Process) :
  1 <= jobs (options s) ->
  jobs (options s') = jobs (options s) ->
  override s = None ->
  override s' = None ->
  (1 <= length pdfinfo <= length pdfinfo')%nat ->
  exists b b',
    validate pdfinfo s = (Return tt, published b s)
    /\ validate pdfinfo' s' = (Return tt, published b' s')
    /\ 1 <= b <= 3 /\ 1 <= b' <= 3 /\ b' <= b.
Proof.
  intros Hw Hjobs Hov Hov' Hp.
  exists (clamp (jobs (options s) / Z.of_nat (length pdfinfo)) 1 3),
         (clamp (jobs (options s') / Z.of_nat (length pdfinfo')) 1 3).
  split; [|split].
  - apply validate_computes; [apply override_None_not_numeric, Hov | lia].
  - apply validate_computes; [apply override_None_not_numeric, Hov' | lia].
  - split; [apply clamp_1_3 | split; [apply clamp_1_3 |]].
    rewrite Hjobs. apply clamp_mono, Z.div_le_compat_l; lia.
Qed.

Lemma C2_witness :
  exists b b',
    validate (pages 1) (fresh 4) = (Return tt, published b (fresh 4))
    /\ validate (pages 2) (fresh 4) = (Return tt, published b' (fresh 4))
    /\ 1 <= b <= 3 /\ 1 <= b' <= 3 /\ b' <= b.
Proof.
  apply (C2_budget_bounded_and_antitone unit (pages 1) (pages 2)
           (fresh 4) (fresh 4));
    [cbn; lia | reflexivity | reflexivity | reflexivity | cbn; lia].
Defined.




(** C4 as stated fails: with the override set to a negative number, to a
    float or to text, the pass does not fail; it returns, and publishes the
    budget computed from the worker and page counts. *)
Lemma C4_counterexample :
  validate (pages 1) (overridden 4 "-1")
    = (Return tt, published 3 (overridden 4 "-1"))
  /\ validate (pages 1) (overridden 4 "1.5")
    = (Return tt, published 3 (overridden 4 "1.5"))
  /\ validate (pages 1) (overridden 4 "abc")
    = (Return tt, published 3 (overridden 4 "abc"))
  /\ ~ fails (validate (pages 1) (overridden 4 "-1"))
  /\ override (published 3 (overridden 4 "-1")) = Some "3".
Proof.
  split; [|split; [|split; [|split]]]; try (vm_compute; reflexivity).
  intros (e & s' & H). vm_compute in H. discriminate H.
Qed.

(** C4, amended: when the override is present but is not a string of
    numeric characters (a negative number, a float, text, the empty
    string), the pass raises nothing for a document with at least one page:
    it discards the value, computes clamp(floor(w / p), 1, 3), overwrites
    the override with it and logs it. *)
Theorem C4_non_numeric_override_recomputed
  (Page : Type) (pdfinfo : list Page) (s : Process) (v : string) :
  override s = Some v ->
  Py.isnumeric v = false ->
  (1 <= length pdfinfo)%nat ->
  let b := clamp (jobs (options s) / Z.of_nat (length pdfinfo)) 1 3 in
  validate pdfinfo s = (Return tt, published b s)
  /\ override (published b s) = Some (Py.str b)
  /\ ~ fails (validate pdfinfo s).
Proof.
  intros Hov Hnum Hp b.
  assert (validate pdfinfo s = (Return tt, published b s)) as Hrun.
  { apply validate_computes; [rewrite Hov; exact Hnum | lia]. }
  split; [exact Hrun | split].
  - apply override_published.
  - rewrite Hrun. intros (e & s' & H). discriminate H.
Qed.

Lemma C4_witness :
  validate (pages 10) (overridden 4 "abc")
    = (Return tt, published 1 (overridden 4 "abc"))
  /\ override (published 1 (overridden 4 "abc")) = Some (Py.str 1)
  /\ ~ fails (validate (pages 10) (overridden 4 "abc")).
Proof.
  apply (C4_non_numeric_override_recomputed unit (pages 10)
           (overridden 4 "abc") "abc");
    [reflexivity | reflexivity | cbn; lia].
Defined.

(** C5: what the code does for a document without pages when no override
    is present: the floor division raises ZeroDivisionError, and no budget
    is published or logged. *)
Theorem C5_zero_pages_raise (Page : Type) (s : Process) :
  override s = None ->
  validate (@nil Page) s = (Raise Py.ZeroDivisionError, s).
Proof.
  intros Hov. apply validate_zero_pages, override_None_not_numeric, Hov.
Qed.

Lemma C5_witness :
  validate (@nil unit) (fresh 4) = (Raise Py.ZeroDivisionError, fresh 4).
Proof.
  apply (C5_zero_pages_raise unit (fresh 4)). reflexivity.
Defined.

(** C6 as stated fails: an override of 7 is adopted as it is, and an
    override of 0 too, so after the pass the process-wide budget is outside
    the range from 1 to 3. *)
Lemma C6_counterexample :
  validate (pages 1) (overridden 4 "7")
    = (Return tt, logged 7 (overridden 4 "7"))
  /\ thread_budget (logged 7 (overridden 4 "7")) = Some 7
  /\ ~ (1 <= 7 <= 3)
  /\ validate (pages 1) (overridden 4 "0")
    = (Return tt, logged 0 (overridden 4 "0"))
  /\ thread_budget (logged 0 (overridden 4 "0")) = Some 0.
Proof.
  split; [|split; [|split; [|split]]]; try (vm_compute; reflexivity).
  lia.
Qed.

(** C6, amended: after every validation pass that returns, the process-wide
    budget is the integer the pass logged; it lies between 1 and 3 when the
    pass computed it, and it is the override's own non-negative value, not
    clamped, when the pass adopted a valid non-negative integer override. *)
Theorem C6_budget_after_validation
  (Page : Type) (pdfinfo : list Page) (s s' : Process) :
  validate pdfinfo s = (Return tt, s') ->
  exists b,
    thread_budget s' = Some b
    /\ log s' = log s ++ [Debug thread_limit_debug b]
    /\ (Py.isnumeric (default "" (override s)) = false -> 1 <= b <= 3)
    /\ (forall v n, override s = Some v -> valid_nonneg_integer v = Some n ->
        b = n /\ 0 <= n).
Proof.
  intros Hrun.
  destruct (validate_returns_inv pdfinfo s s' Hrun)
    as [(v & b & Hov & Hnum & Hint & ->) | (Hnum & b & Hb & ->)]; exists b.
  - split; [|split; [reflexivity | split]].
    + unfold thread_budget. change (override (logged b s)) with (override s).
      rewrite Hov, Hint. reflexivity.
    + rewrite Hov. cbn. congruence.
    + intros v' n Hov' Hv. rewrite Hov in Hov'. injection Hov' as <-.
      destruct (valid_nonneg_integer_spec v n Hv) as (_ & Hint' & Hn).
      rewrite Hint in Hint'. destruct (within_int_limit v); [|discriminate Hint'].
      injection Hint' as ->. split; [reflexivity|exact Hn].
  - split; [|split; [reflexivity | split; [intros _; exact Hb|]]].
    + unfold thread_budget. rewrite override_published.
      destruct (int_str b ltac:(lia)) as (_ & ->). reflexivity.
    + intros v n Hov Hv.
      destruct (valid_nonneg_integer_spec v n Hv) as (Hnum' & _).
      rewrite Hov in Hnum. cbn in Hnum. congruence.
Qed.

Lemma C6_witness :
  exists b,
    thread_budget (published 3 (fresh 4)) = Some b
    /\ log (published 3 (fresh 4)) = log (fresh 4) ++ [Debug thread_limit_debug b]
    /\ (Py.isnumeric (default "" (override (fresh 4))) = false -> 1 <= b <= 3)
    /\ (forall v n, override (fresh 4) = Some v ->
        valid_nonneg_integer v = Some n -> b = n /\ 0 <= n).
Proof.
  apply (C6_budget_after_validation unit (pages 1) (fresh 4)
           (published 3 (fresh 4))).
  reflexivity.
Defined.

(** Once the environment holds a numeric value that [int] reads as [b],
    every later pass adopts [b] and leaves the environment alone. *)
Lemma validate_each_adopts {Page : Type} (runs : list (list Page)) :
  forall (s : Process) (v : string) (b : Z),
    override s = Some v ->
    Py.isnumeric v = true ->
    Py.int v = inr b ->
    exists s',
      validate_each runs s = (Return tt, s')
      /\ environ s' = environ s
      /\ log s' = log s ++ map (fun _ => Debug thread_limit_debug b) runs.
Proof.
  induction runs as [|pdfinfo later IH]; intros s v b Hov Hnum Hint.
  - exists s. cbn. rewrite app_nil_r. repeat split.
  - cbn [validate_each]. unfold bind.
    rewrite (validate_adopts pdfinfo s v Hov Hnum), Hint.
    destruct (IH (logged b s) v b Hov Hnum Hint) as (s' & Hrun & Henv & Hlog).
    exists s'. split; [exact Hrun | split; [exact Henv|]].
    rewrite Hlog. cbn. rewrite <- app_assoc. reflexivity.
Qed.

(** C7: publication is idempotent. After a validation pass has returned,
    the environment holds the budget it logged; every later pass, whatever
    its document, adopts that same budget without computing anything and
    leaves the environment unchanged. *)
Theorem C7_budget_frozen
  (Page : Type) (pdfinfo : list Page) (s s1 : Process) :
  validate pdfinfo s = (Return tt, s1) ->
  exists (v : string) (b : Z),
    override s1 = Some v
    /\ Py.int v = inr b
    /\ log s1 = log s ++ [Debug thread_limit_debug b]
    /\ (Py.isnumeric (default "" (override s)) = false -> v = Py.str b)
    /\ forall runs : list (list Page),
         exists s2,
           validate_each runs s1 = (Return tt, s2)
           /\ environ s2 = environ s1
           /\ log s2 = log s1 ++ map (fun _ => Debug thread_limit_debug b) runs.
Proof.
  intros Hrun.
  destruct (validate_returns_inv pdfinfo s s1 Hrun)
    as [(v & b & Hov & Hnum & Hint & ->) | (Hnum & b & Hb & ->)].
  - exists v, b.
    split; [exact Hov | split; [exact Hint | split; [reflexivity|]]].
    split; [rewrite Hov; cbn; congruence|].
    intros runs. exact (validate_each_adopts runs (logged b s) v b Hov Hnum Hint).
  - destruct (int_str b ltac:(lia)) as (Hnum' & Hint).
    exists (Py.str b), b.
    split; [apply override_published | split; [exact Hint | split; [reflexivity|]]].
    split; [reflexivity|].
    intros runs.
    exact (validate_each_adopts runs (published b s) (Py.str b) b
             (override_published b s) Hnum' Hint).
Qed.

Lemma C7_witness :
  exists (v : string) (b : Z),
    override (published 3 (fresh 4)) = Some v
    /\ Py.int v = inr b
    /\ log (published 3 (fresh 4)) = log (fresh 4) ++ [Debug thread_limit_debug b]
    /\ (Py.isnumeric (default "" (override (fresh 4))) = false -> v = Py.str b)
    /\ forall runs : list (list unit),
         exists s2,
           validate_each runs (published 3 (fresh 4)) = (Return tt, s2)
           /\ environ s2 = environ (published 3 (fresh 4))
           /\ log s2 = log (published 3 (fresh 4))
                       ++ map (fun _ => Debug thread_limit_debug b) runs.
Proof.
  apply (C7_budget_frozen unit (pages 1) (fresh 4) (published 3 (fresh 4))).
  reflexivity.
Defined.

(** ** The option check *)

(** What [check_options] does once the engine has passed the external
    program check. *)
Lemma check_options_accepted (s : Process) (r : EngineCapabilityReport) :
  engine_accepted s r ->
  check_options s =
    (Return tt,
     {| options :=
          if String.eqb (pdf_renderer (options s)) "auto"
          then set_pdf_renderer "sandwich" (options s) else options s;
        environ := environ s;
        log := log s
               ++ (if negb (supports_thresholding r)
                      && negb (Z.eqb (tesseract_thresholding (options s)) 0)
                   then [Warning thresholding_warning] else [])
               ++ (if in_0_2 (tesseract_pagesegmode (options s))
                   then [Warning pagesegmode_warning] else []);
        engine := engine s |}).
Proof.
  intros [Heng Hmin].
  destruct s as [[rend jb lang cfg psm oem thr tmo uw up] env lg eng].
  cbv [options environ log engine] in Heng. subst eng.
  unfold check_options, bind, check_external_program, has_thresholding,
    get_options, when, set_options, log_warning, ret.
  cbv beta iota zeta delta
    [options environ log engine pdf_renderer tesseract_thresholding
     tesseract_pagesegmode set_pdf_renderer].
  rewrite Hmin.
  destruct (String.eqb rend "auto"); step_check;
    destruct (supports_thresholding r); step_check;
    destruct (Z.eqb thr 0); step_check;
    destruct (in_0_2 psm); step_check;
    rewrite ?app_nil_r, <- ?app_assoc; reflexivity.
Qed.

(** Without an accepted engine the hook raises before it reads or writes
    anything. *)
Lemma check_options_rejected (s : Process) :
  (forall r, ~ engine_accepted s r) ->
  fails (check_options s) /\ exists e, check_options s = (Raise e, s).
Proof.
  intros Hrej.
  assert (exists e, check_options s = (Raise e, s)) as (e & He).
  { unfold check_options, bind, check_external_program.
    destruct (engine s) as [r|] eqn:Heng; [|eexists; reflexivity].
    destruct (meets_minimum_version r) eqn:Hmin; [|eexists; reflexivity].
    destruct (Hrej r). split; assumption. }
  split; [exists e, s; exact He | exists e; exact He].
Qed.

Lemma in_0_2_spec (x : option Z) :
  in_0_2 x = true <-> x = Some 0 \/ x = Some 2.
Proof.
  destruct x as [n|]; cbn.
  - rewrite orb_true_iff, !Z.eqb_eq. split.
    + intros [-> | ->]; [left | right]; reflexivity.
    + intros [[= ->] | [= ->]]; [left | right]; reflexivity.
  - split; [discriminate | intros [H|H]; discriminate H].
Qed.

Lemma warnings_differ : thresholding_warning <> pagesegmode_warning.
Proof. discriminate. Qed.

Lemma warning_inj (m m' : string) : Warning m = Warning m' -> m = m'.
Proof. intros H. congruence. Qed.




(** C9: when the engine has passed the external program check, the option
    check itself - the validation step, which no page has reached yet -
    logs the warning that the segmentation mode disables OCR exactly when
    the page segmentation mode is 0 or 2, and logs it once; for every other
    value, and when no mode is set, it does not log it. *)
Theorem C9_segmentation_mode_warning
  (s : Process) (r : EngineCapabilityReport) :
  engine_accepted s r ->
  exists s' new,
    check_options s = (Return tt, s')
    /\ log s' = log s ++ new
    /\ (In (Warning pagesegmode_warning) new <->
        tesseract_pagesegmode (options s) = Some 0
        \/ tesseract_pagesegmode (options s) = Some 2)
    /\ emitted pagesegmode_warning new
       = (if in_0_2 (tesseract_pagesegmode (options s)) then 1 else 0)%nat.
Proof.
  intros Hacc.
  pose proof (check_options_accepted s r Hacc) as Hrun.
  eexists _, _. split; [exact Hrun|]. split; [reflexivity|].
  rewrite <- in_0_2_spec.
  destruct (negb (supports_thresholding r)
            && negb (Z.eqb (tesseract_thresholding (options s)) 0));
    destruct (in_0_2 (tesseract_pagesegmode (options s)));
    (split; [|vm_compute; reflexivity]); cbn [app In]; split;
    try (intros _; reflexivity); try discriminate.
  - intros _. right. left. reflexivity.
  - intros [H | []]. apply warning_inj in H. destruct (warnings_differ H).
  - intros _. left. reflexivity.
  - intros [].
Qed.

Lemma C9_witness :
  let s := process_with (options_with 4 (Some 2) 0) ∅ in
  exists s' new,
    check_options s = (Return tt, s')
    /\ log s' = log s ++ new
    /\ (In (Warning pagesegmode_warning) new <->
        tesseract_pagesegmode (options s) = Some 0
        \/ tesseract_pagesegmode (options s) = Some 2)
    /\ emitted pagesegmode_warning new
       = (if in_0_2 (tesseract_pagesegmode (options s)) then 1 else 0)%nat.
Proof.
  cbv zeta.
  apply (C9_segmentation_mode_warning
           (process_with (options_with 4 (Some 2) 0) ∅) tesseract_4_1_1).
  split; reflexivity.
Defined.



(** * Further properties of the plugin *)

(** ** [validate]: every way a pass can end *)

Lemma int_raises_ValueError (v : string) (e : Py.Exception) :
  Py.int v = inl e -> e = Py.ValueError.
Proof.
  unfold Py.int.
  destruct (match Py.skip_space v with
            | String "+" r => (false, r)
            | String "-" r => (true, r)
            | _ => (false, Py.skip_space v)
            end) as [neg u].
  destruct (Py.scan_digits u 0 0 false) as [[x rest]|]; [|congruence].
  destruct (Py.int_max_str_digits <? Py.literal_digits u)%N; [congruence|].
  destruct (Py.skip_space rest); congruence.
Qed.

Lemma numeric_default_override (s : Process) :
  Py.isnumeric (default "" (override s)) = true ->
  exists v, override s = Some v /\ Py.isnumeric v = true.
Proof.
  destruct (override s) as [v|]; cbn; [eauto | discriminate].
Qed.

(** The four ways a pass can end. *)
Lemma validate_cases {Page : Type} (pdfinfo : list Page) (s : Process) :
  (exists v b, override s = Some v /\ Py.isnumeric v = true
     /\ Py.int v = inr b /\ validate pdfinfo s = (Return tt, logged b s))
  \/ (exists v, override s = Some v /\ Py.isnumeric v = true
     /\ Py.int v = inl Py.ValueError
     /\ validate pdfinfo s = (Raise Py.ValueError, s))
  \/ (Py.isnumeric (default "" (override s)) = false /\ pdfinfo = []
     /\ validate pdfinfo s = (Raise Py.ZeroDivisionError, s))
  \/ (Py.isnumeric (default "" (override s)) = false /\ pdfinfo <> []
     /\ validate pdfinfo s =
        (Return tt,
         published (clamp (jobs (options s) / Z.of_nat (length pdfinfo)) 1 3) s)).
Proof.
  destruct (Py.isnumeric (default "" (override s))) eqn:Hnum.
  - destruct (numeric_default_override s Hnum) as (v & Hov & Hv).
    pose proof (validate_adopts pdfinfo s v Hov Hv) as Hrun.
    destruct (Py.int v) as [e|b] eqn:Hint.
    + pose proof (int_raises_ValueError v e Hint) as ->.
      right; left. exists v. auto.
    + left. exists v, b. auto.
  - right; right. destruct pdfinfo as [|pg rest].
    + left. split; [reflexivity | split; [reflexivity|]].
      apply validate_zero_pages, Hnum.
    + right. split; [reflexivity | split; [discriminate|]].
      apply validate_computes; [exact Hnum | discriminate].
Qed.

(** ** Numeric strings that are not integers *)

Lemma numeric_not_decimal_char (c : ascii) :
  Py.isnumeric_char c = true -> Py.isdecimal_char c = false ->
  (Py.code c =? 95)%N = false /\ Py.int_space c = false.
Proof.
  destruct c as [[] [] [] [] [] [] [] []]; vm_compute;
    intros H1 H2; try discriminate H1; try discriminate H2;
    split; reflexivity.
Qed.

(** Scanning a numeric string that has a character other than a decimal
    digit stops in front of such a character, or reads no digit at all. *)
Lemma scan_digits_stops (s : string) :
  forall (acc : Z) (n : nat),
    Py.all_chars Py.isnumeric_char s = true ->
    Py.all_chars Py.isdecimal_char s = false ->
    match Py.scan_digits s acc n false with
    | Some (_, rest) =>
        exists c r, rest = String c r /\ Py.int_space c = false
    | None => True
    end.
Proof.
  induction s as [|c r IH]; intros acc n Hnum Hdec; [discriminate Hdec|].
  cbn [Py.all_chars] in Hnum, Hdec.
  apply andb_true_iff in Hnum as [Hc Hr].
  cbn [Py.scan_digits].
  destruct (Py.isdecimal_char c) eqn:Hd.
  - cbn in Hdec. apply IH; assumption.
  - destruct (numeric_not_decimal_char c Hc Hd) as [H95 Hsp].
    rewrite H95. destruct n; [exact I|]. exists c, r. auto.
Qed.

(** [int] refuses a numeric string that has a character other than a
    decimal digit. *)
Lemma int_numeric_not_decimal (v : string) :
  Py.isnumeric v = true ->
  Py.all_chars Py.isdecimal_char v = false ->
  Py.int v = inl Py.ValueError.
Proof.
  intros Hnum Hdec. destruct v as [|c r]; [discriminate Hnum|].
  unfold Py.isnumeric in Hnum.
  assert (Py.isnumeric_char c = true) as Hc.
  { cbn [Py.all_chars] in Hnum. apply andb_true_iff in Hnum. tauto. }
  rewrite (int_numeric_head c r Hc).
  pose proof (scan_digits_stops (String c r) 0 O Hnum Hdec) as Hscan.
  destruct (Py.scan_digits (String c r) 0 0 false) as [[x rest]|];
    [|reflexivity].
  destruct Hscan as (c' & r' & -> & Hsp).
  destruct (Py.int_max_str_digits <? Py.literal_digits (String c r))%N;
    [reflexivity|].
  cbn [Py.skip_space]. rewrite Hsp. reflexivity.
Qed.

Lemma uint_of_decimal_char (c : ascii) (d : Decimal.uint) :
  Py.isdecimal_char c = true ->
  exists d', uint_of_char c (Some d) = Some d'.
Proof.
  destruct c as [[] [] [] [] [] [] [] []]; intros H; try discriminate H;
    eexists; reflexivity.
Qed.

Lemma uint_of_decimal_string (v : string) :
  Py.all_chars Py.isdecimal_char v = true ->
  exists d, NilEmpty.uint_of_string v = Some d.
Proof.
  induction v as [|c r IH]; intros Hdec; [eexists; reflexivity|].
  cbn [Py.all_chars] in Hdec. apply andb_true_iff in Hdec as [Hc Hr].
  destruct (IH Hr) as (d & Hd). cbn [NilEmpty.uint_of_string]. rewrite Hd.
  apply uint_of_decimal_char, Hc.
Qed.

(** The valid non-negative integer strings are the non-empty strings of
    decimal digits. *)
Lemma valid_nonneg_integer_iff (v : string) :
  (exists n, valid_nonneg_integer v = Some n)
  <-> v <> "" /\ Py.all_chars Py.isdecimal_char v = true.
Proof.
  split.
  - intros (n & Hv). split.
    + intros ->. discriminate Hv.
    + destruct (valid_nonneg_integer_digits v n Hv) as (d & _ & <- & _).
      apply all_decimal_string_of_uint.
  - intros [Hne Hdec]. unfold valid_nonneg_integer, NilZero.uint_of_string.
    destruct (uint_of_decimal_string v Hdec) as (d & Hd).
    destruct v; [congruence|]. rewrite Hd. eexists. reflexivity.
Qed.

(** On numeric strings [int] succeeds exactly on the valid non-negative
    integer strings within the limit, with their value. *)
Lemma int_numeric (v : string) :
  Py.isnumeric v = true ->
  Py.int v = match valid_nonneg_integer v with
             | Some n => if within_int_limit v then inr n
                         else inl Py.ValueError
             | None => inl Py.ValueError
             end.
Proof.
  intros Hnum. destruct (valid_nonneg_integer v) as [n|] eqn:Hv.
  - apply valid_nonneg_integer_spec, Hv.
  - apply int_numeric_not_decimal; [exact Hnum|].
    destruct (Py.all_chars Py.isdecimal_char v) eqn:Hdec; [|reflexivity].
    destruct (proj2 (valid_nonneg_integer_iff v)) as (n & Hn); [|congruence].
    split; [intros ->; discriminate Hnum | exact Hdec].
Qed.

(** When [int] returns on a numeric string, the string is a valid
    non-negative integer string within the limit and the result is its
    value. *)
Lemma int_numeric_returns (v : string) (b : Z) :
  Py.isnumeric v = true ->
  Py.int v = inr b ->
  valid_nonneg_integer v = Some b /\ within_int_limit v = true.
Proof.
  intros Hnum Hint. rewrite (int_numeric v Hnum) in Hint.
  destruct (valid_nonneg_integer v) as [n|]; [|discriminate Hint].
  destruct (within_int_limit v); [|discriminate Hint].
  injection Hint as ->. auto.
Qed.


(** ** [validate]: failures, frame and dependencies *)

(** X1: an override that is numeric for [str.isnumeric] but is not a
    string of decimal digits (superscript digits, vulgar fractions) makes
    the pass raise ValueError from [int]; nothing is published or logged. *)
Theorem X1_numeric_non_integer_override_raises
  (Page : Type) (pdfinfo : list Page) (s : Process) (v : string) :
  override s = Some v ->
  Py.isnumeric v = true ->
  valid_nonneg_integer v = None ->
  validate pdfinfo s = (Raise Py.ValueError, s).
Proof.
  intros Hov Hnum Hv.
  rewrite (validate_adopts pdfinfo s v Hov Hnum), (int_numeric v Hnum), Hv.
  reflexivity.
Qed.

Lemma X1_witness :
  validate (pages 1) (overridden 4 superscript_two)
  = (Raise Py.ValueError, overridden 4 superscript_two).
Proof.
  apply (X1_numeric_non_integer_override_raises unit (pages 1)
           (overridden 4 superscript_two) superscript_two); reflexivity.
Defined.




(** X4: after every pass that returns, OMP_THREAD_LIMIT holds a valid
    non-negative integer string, and its value is the budget the pass
    logged; a budget is never negative. *)
Theorem X4_published_value_is_valid
  (Page : Type) (pdfinfo : list Page) (s s' : Process) :
  validate pdfinfo s = (Return tt, s') ->
  exists (v : string) (b : Z),
    override s' = Some v
    /\ valid_nonneg_integer v = Some b
    /\ 0 <= b
    /\ log s' = log s ++ [Debug thread_limit_debug b].
Proof.
  intros Hrun.
  destruct (validate_returns_inv pdfinfo s s' Hrun)
    as [(v & b & Hov & Hnum & Hint & ->) | (Hnum & b & Hb & ->)].
  - exists v, b.
    destruct (int_numeric_returns v b Hnum Hint) as [Hv _].
    destruct (valid_nonneg_integer_spec v b Hv) as (_ & _ & Hb).
    repeat split; assumption || reflexivity.
  - exists (Py.str b), b.
    destruct (int_str b ltac:(lia)) as (Hnum' & Hint).
    destruct (int_numeric_returns _ b Hnum' Hint) as [Hv _].
    split; [apply override_published | split; [exact Hv | split; [lia|]]].
    reflexivity.
Qed.

Lemma X4_witness :
  exists (v : string) (b : Z),
    override (logged 7 (overridden 4 "7")) = Some v
    /\ valid_nonneg_integer v = Some b
    /\ 0 <= b
    /\ log (logged 7 (overridden 4 "7"))
       = log (overridden 4 "7") ++ [Debug thread_limit_debug b].
Proof.
  apply (X4_published_value_is_valid unit (pages 1) (overridden 4 "7")
           (logged 7 (overridden 4 "7"))).
  reflexivity.
Defined.

(** X5: whatever its outcome, a pass leaves the options and the engine as
    they were, changes no environment variable other than OMP_THREAD_LIMIT,
    logs at most one record and never a warning. *)
Theorem X5_validate_frame
  (Page : Type) (pdfinfo : list Page) (s : Process) :
  let s' := snd (validate pdfinfo s) in
  options s' = options s
  /\ engine s' = engine s
  /\ (forall k, k <> OMP_THREAD_LIMIT -> environ s' !! k = environ s !! k)
  /\ exists new, log s' = log s ++ new
                 /\ (length new <= 1)%nat /\ warnings new = [].
Proof.
  cbv zeta.
  destruct (validate_cases pdfinfo s)
    as [(v & b & _ & _ & _ & H) | [(v & _ & _ & _ & H)
        | [(_ & _ & H) | (_ & _ & H)]]]; rewrite H; cbn [snd].
  - repeat split. exists [Debug thread_limit_debug b]. repeat split. cbn. lia.
  - repeat split. exists []. rewrite app_nil_r. repeat split. cbn. lia.
  - repeat split. exists []. rewrite app_nil_r. repeat split. cbn. lia.
  - split; [reflexivity | split; [reflexivity | split]].
    + intros k Hk. cbn [published environ]. apply lookup_insert_ne. congruence.
    + eexists. split; [reflexivity|]. split; [cbn; lia | reflexivity].
Qed.

(** X6: the outcome of a pass and the value it leaves in OMP_THREAD_LIMIT
    depend only on the override, on [options.jobs] and on the number of
    pages. *)
Theorem X6_validate_depends_on
  (Page Page' : Type) (pdfinfo : list Page) (pdfinfo' : list Page')
  (s s' : Process) :
  override s' = override s ->
  jobs (options s') = jobs (options s) ->
  length pdfinfo' = length pdfinfo ->
  fst (validate pdfinfo' s') = fst (validate pdfinfo s)
  /\ override (snd (validate pdfinfo' s')) = override (snd (validate pdfinfo s)).
Proof.
  intros Hov Hjobs Hlen.
  destruct (validate_cases pdfinfo s)
    as [(v & b & Hv & Hnum & Hint & H) | [(v & Hv & Hnum & Hint & H)
        | [(Hnum & Hnil & H) | (Hnum & Hne & H)]]]; rewrite H; cbn [fst snd].
  - rewrite <- Hov in Hv.
    rewrite (validate_adopts pdfinfo' s' v Hv Hnum), Hint.
    split; [reflexivity|]. cbn [fst snd]. exact Hov.
  - rewrite <- Hov in Hv.
    rewrite (validate_adopts pdfinfo' s' v Hv Hnum), Hint.
    split; [reflexivity | exact Hov].
  - subst pdfinfo. destruct pdfinfo'; [|discriminate Hlen].
    rewrite validate_zero_pages by (rewrite Hov; exact Hnum).
    split; [reflexivity | exact Hov].
  - rewrite validate_computes; [| rewrite Hov; exact Hnum |].
    + cbn [fst snd]. split; [reflexivity|].
      rewrite !override_published, Hjobs, Hlen. reflexivity.
    + rewrite Hlen. destruct pdfinfo; [congruence | discriminate].
Qed.

Lemma X6_witness :
  let s := overridden 4 "abc" in
  let s' := process_with (options_with 4 (Some 2) 3)
              {[ OMP_THREAD_LIMIT := "abc"; "PATH" := "/usr/bin" ]} in
  fst (validate [true; false] s') = fst (validate (pages 2) s)
  /\ override (snd (validate [true; false] s'))
     = override (snd (validate (pages 2) s)).
Proof.
  cbv zeta.
  apply (X6_validate_depends_on unit bool (pages 2) [true; false]
           (overridden 4 "abc")
           (process_with (options_with 4 (Some 2) 3)
              {[ OMP_THREAD_LIMIT := "abc"; "PATH" := "/usr/bin" ]}));
    reflexivity.
Defined.

(** ** The computed budget as a function of workers and pages *)

Lemma clamp_thresholds (w p : Z) :
  1 <= p ->
  let b := clamp (w / p) 1 3 in
  (b = 1 <-> w < 2 * p) /\ (b = 2 <-> 2 * p <= w < 3 * p)
  /\ (b = 3 <-> 3 * p <= w).
Proof.
  intros Hp. cbv zeta.
  assert (forall k, k <= w / p <-> k * p <= w) as Hdiv.
  { intros k. split; intros H.
    - pose proof (Z.mul_div_le w p ltac:(lia)). nia.
    - apply Z.div_le_lower_bound; lia. }
  pose proof (Hdiv 2) as H2. pose proof (Hdiv 3) as H3.
  unfold clamp. lia.
Qed.

(** X7: when the budget is computed for a document of p >= 1 pages and w
    workers (any integer, also zero or negative), it is 1 when w < 2p, 2
    when 2p <= w < 3p, and 3 when w >= 3p. *)
Theorem X7_budget_thresholds
  (Page : Type) (pdfinfo : list Page) (s : Process) :
  Py.isnumeric (default "" (override s)) = false ->
  (1 <= length pdfinfo)%nat ->
  let w := jobs (options s) in
  let p := Z.of_nat (length pdfinfo) in
  exists b,
    validate pdfinfo s = (Return tt, published b s)
    /\ (b = 1 <-> w < 2 * p)
    /\ (b = 2 <-> 2 * p <= w < 3 * p)
    /\ (b = 3 <-> 3 * p <= w).
Proof.
  intros Hnum Hp w p.
  exists (clamp (w / p) 1 3). split.
  - apply validate_computes; [exact Hnum | lia].
  - apply clamp_thresholds. lia.
Qed.

Lemma X7_witness :
  exists b,
    validate (pages 2) (fresh 5) = (Return tt, published b (fresh 5))
    /\ (b = 1 <-> 5 < 2 * 2)
    /\ (b = 2 <-> 2 * 2 <= 5 < 3 * 2)
    /\ (b = 3 <-> 3 * 2 <= 5).
Proof.
  apply (X7_budget_thresholds unit (pages 2) (fresh 5));
    [reflexivity | cbn; lia].
Defined.

(** X8: the constraint named in the comment of [validate]: with w >= 1
    workers and p >= 1 pages, at most min(w, p) pages are in work at a
    time, and the computed budget b keeps min(w, p) * b <= w; whenever the
    budget is above 1, even p * b <= w. *)
Theorem X8_budget_respects_workers
  (Page : Type) (pdfinfo : list Page) (s : Process) :
  Py.isnumeric (default "" (override s)) = false ->
  (1 <= length pdfinfo)%nat ->
  1 <= jobs (options s) ->
  let w := jobs (options s) in
  let p := Z.of_nat (length pdfinfo) in
  exists b,
    validate pdfinfo s = (Return tt, published b s)
    /\ Z.min w p * b <= w
    /\ (1 < b -> p * b <= w).
Proof.
  intros Hnum Hp Hw w p.
  exists (clamp (w / p) 1 3). split.
  - apply validate_computes; [exact Hnum | lia].
  - destruct (clamp_thresholds w p ltac:(lia)) as (H1 & H2 & H3).
    pose proof (clamp_1_3 (w / p)) as Hb.
    fold w in Hw. split; [nia | nia].
Qed.

Lemma X8_witness :
  exists b,
    validate (pages 2) (fresh 8) = (Return tt, published b (fresh 8))
    /\ Z.min 8 2 * b <= 8
    /\ (1 < b -> 2 * b <= 8).
Proof.
  apply (X8_budget_respects_workers unit (pages 2) (fresh 8));
    [reflexivity | cbn; lia | cbn; lia].
Defined.

(** X9: for a fixed document, more workers never give a smaller computed
    budget. *)
Theorem X9_budget_monotone_in_workers
  (Page : Type) (pdfinfo : list Page) (s s' : Process) :
  Py.isnumeric (default "" (override s)) = false ->
  Py.isnumeric (default "" (override s')) = false ->
  (1 <= length pdfinfo)%nat ->
  jobs (options s) <= jobs (options s') ->
  exists b b',
    validate pdfinfo s = (Return tt, published b s)
    /\ validate pdfinfo s' = (Return tt, published b' s')
    /\ b <= b'.
Proof.
  intros Hnum Hnum' Hp Hw.
  eexists _, _. split; [|split].
  - apply validate_computes; [exact Hnum | lia].
  - apply validate_computes; [exact Hnum' | lia].
  - apply clamp_mono, Z.div_le_mono; lia.
Qed.

Lemma X9_witness :
  exists b b',
    validate (pages 2) (fresh 4) = (Return tt, published b (fresh 4))
    /\ validate (pages 2) (fresh 7) = (Return tt, published b' (fresh 7))
    /\ b <= b'.
Proof.
  apply (X9_budget_monotone_in_workers unit (pages 2) (fresh 4) (fresh 7));
    [reflexivity | reflexivity | cbn; lia | cbn; lia].
Defined.

(** ** [check_options]: warnings, repetition, and what the engine calls see *)

Lemma check_options_returns_accepted (s s' : Process) :
  check_options s = (Return tt, s') -> exists r, engine_accepted s r.
Proof.
  intros Hrun.
  destruct (engine s) as [r|] eqn:Heng.
  - destruct (meets_minimum_version r) eqn:Hmin.
    + exists r. split; assumption.
    + destruct (check_options_rejected s) as (_ & e & He).
      * intros r' [Hr' Hm]. congruence.
      * congruence.
  - destruct (check_options_rejected s) as (_ & e & He).
    + intros r' [Hr' _]. congruence.
    + congruence.
Qed.

Lemma not_in_segmentation_only :
  ~ In (Warning thresholding_warning) [Warning pagesegmode_warning].
Proof.
  intros [H | []]. apply warning_inj in H.
  exact (warnings_differ (eq_sym H)).
Qed.

(** X10: the option check logs the thresholding warning exactly when the
    engine lacks configurable thresholding and the requested method is not
    0; with method 0, or with an engine that supports thresholding, it is
    never logged. The check logs nothing but warnings, at most two, and
    the thresholding warning at most once. *)
Theorem X10_thresholding_warning_iff
  (s : Process) (r : EngineCapabilityReport) :
  engine_accepted s r ->
  exists s' new,
    check_options s = (Return tt, s')
    /\ log s' = log s ++ new
    /\ (In (Warning thresholding_warning) new <->
        supports_thresholding r = false
        /\ tesseract_thresholding (options s) <> 0)
    /\ new = map Warning (warnings new)
    /\ (length new <= 2)%nat
    /\ (emitted thresholding_warning new <= 1)%nat.
Proof.
  intros Hacc.
  pose proof (check_options_accepted s r Hacc) as Hrun.
  eexists _, _. split; [exact Hrun|]. split; [reflexivity|].
  destruct (supports_thresholding r);
    destruct (Z.eqb_spec (tesseract_thresholding (options s)) 0) as [H0|H0];
    destruct (in_0_2 (tesseract_pagesegmode (options s)));
    cbn [negb andb app];
    (split; [|split; [reflexivity | split; [cbn; lia | vm_compute; lia]]]);
    (split; [intros Hin | intros [Hs Ht]]);
    try discriminate; try contradiction;
    try (destruct (not_in_segmentation_only Hin));
    try (destruct Hin); try (split; [reflexivity | assumption]);
    try (left; reflexivity).
Qed.

Lemma X10_witness :
  let s := process_with (options_with 4 (Some 0) 0) ∅ in
  exists s' new,
    check_options s = (Return tt, s')
    /\ log s' = log s ++ new
    /\ (In (Warning thresholding_warning) new <->
        supports_thresholding tesseract_4_1_1 = false
        /\ tesseract_thresholding (options s) <> 0)
    /\ new = map Warning (warnings new)
    /\ (length new <= 2)%nat
    /\ (emitted thresholding_warning new <= 1)%nat.
Proof.
  cbv zeta.
  apply (X10_thresholding_warning_iff
           (process_with (options_with 4 (Some 0) 0) ∅) tesseract_4_1_1).
  split; reflexivity.
Defined.

(** X11: running the option check a second time changes neither the
    options nor the environment: the renderer decided by the first run
    stays. But the check does not remember that it has warned: the second
    run logs the same warnings again. *)
Theorem X11_second_check_repeats_warnings (s s1 : Process) :
  check_options s = (Return tt, s1) ->
  exists s2 new,
    check_options s1 = (Return tt, s2)
    /\ options s2 = options s1
    /\ environ s2 = environ s1
    /\ log s1 = log s ++ new
    /\ log s2 = log s1 ++ new.
Proof.
  intros Hrun.
  destruct (check_options_returns_accepted s s1 Hrun) as (r & Hacc).
  rewrite (check_options_accepted s r Hacc) in Hrun.
  injection Hrun as <-.
  match goal with |- context [mkProcess ?o ?e ?l ?g] =>
    set (s1 := mkProcess o e l g) end.
  assert (engine_accepted s1 r) as Hacc1 by exact Hacc.
  assert (String.eqb (pdf_renderer (options s1)) "auto" = false) as Hr.
  { cbn [s1 options].
    destruct (String.eqb_spec (pdf_renderer (options s)) "auto") as [_|Hne].
    - reflexivity.
    - apply String.eqb_neq, Hne. }
  assert (tesseract_thresholding (options s1)
          = tesseract_thresholding (options s)) as Ht.
  { cbn [s1 options]. destruct (String.eqb _ _); reflexivity. }
  assert (tesseract_pagesegmode (options s1)
          = tesseract_pagesegmode (options s)) as Hp.
  { cbn [s1 options]. destruct (String.eqb _ _); reflexivity. }
  eexists _, _. split; [apply (check_options_accepted s1 r Hacc1)|].
  rewrite Hr, Ht, Hp. cbn [options environ log].
  repeat split; reflexivity.
Qed.

Lemma X11_witness :
  let s := process_with (options_with 4 (Some 2) 1) ∅ in
  let s1 := snd (check_options s) in
  exists s2 new,
    check_options s1 = (Return tt, s2)
    /\ options s2 = options s1
    /\ environ s2 = environ s1
    /\ log s1 = log s ++ new
    /\ log s2 = log s1 ++ new.
Proof.
  cbv zeta.
  apply (X11_second_check_repeats_warnings
           (process_with (options_with 4 (Some 2) 1) ∅)).
  reflexivity.
Defined.

(** X12: the option check changes nothing that the engine calls are made
    from: get_orientation, get_deskew, generate_hocr and generate_pdf make
    the same calls with the options after the check as with the options
    before it. *)
Theorem X12_calls_unchanged_by_check (s s' : Process) :
  check_options s = (Return tt, s') ->
  forall input_file output output_text : string,
    TesseractOcrEngine.get_orientation input_file (options s')
      = TesseractOcrEngine.get_orientation input_file (options s)
    /\ TesseractOcrEngine.get_deskew input_file (options s')
      = TesseractOcrEngine.get_deskew input_file (options s)
    /\ generate_hocr input_file output output_text (options s')
      = generate_hocr input_file output output_text (options s)
    /\ generate_pdf input_file output output_text (options s')
      = generate_pdf input_file output output_text (options s).
Proof.
  intros Hrun input_file output output_text.
  destruct (check_options_returns_accepted s s' Hrun) as (r & Hacc).
  rewrite (check_options_accepted s r Hacc) in Hrun.
  injection Hrun as <-. cbn [options].
  destruct (String.eqb _ _); repeat split; reflexivity.
Qed.

Lemma X12_witness :
  let s := process_with (options_with 4 None 0) ∅ in
  let s' := snd (check_options s) in
  TesseractOcrEngine.get_orientation "page.png" (options s')
    = TesseractOcrEngine.get_orientation "page.png" (options s)
  /\ TesseractOcrEngine.get_deskew "page.png" (options s')
    = TesseractOcrEngine.get_deskew "page.png" (options s)
  /\ generate_hocr "page.png" "page.out" "page.txt" (options s')
    = generate_hocr "page.png" "page.out" "page.txt" (options s)
  /\ generate_pdf "page.png" "page.out" "page.txt" (options s')
    = generate_pdf "page.png" "page.out" "page.txt" (options s).
Proof.
  cbv zeta.
  apply (X12_calls_unchanged_by_check
           (process_with (options_with 4 None 0) ∅)).
  reflexivity.
Defined.

(** X13: after the option check the creator tag is the sandwich tag,
    'Tesseract OCR-PDF' followed by the version, whenever the renderer
    was 'auto' or 'sandwich' before the check; for every other renderer
    it is 'Tesseract OCR' followed by the version. Computing the tag
    changes nothing. *)
Theorem X13_creator_tag_after_check
  (s : Process) (r : EngineCapabilityReport) :
  engine_accepted s r ->
  exists s',
    check_options s = (Return tt, s')
    /\ creator_tag_of_process s' =
       (Return
          (String.append
             (if String.eqb (pdf_renderer (options s)) "auto"
                 || String.eqb (pdf_renderer (options s)) "sandwich"
              then "Tesseract OCR-PDF " else "Tesseract OCR ")
             (version r)),
        s').
Proof.
  intros Hacc. pose proof Hacc as [Heng _].
  eexists. split; [apply (check_options_accepted s r Hacc)|].
  unfold creator_tag_of_process, TesseractOcrEngine.creator_tag,
    TesseractOcrEngine.version, tesseract_version, bind, get_options, ret.
  cbn [options engine]. rewrite Heng.
  destruct (String.eqb_spec (pdf_renderer (options s)) "auto") as [Ha|Ha].
  - reflexivity.
  - cbn [orb]. destruct (String.eqb (pdf_renderer (options s)) "sandwich");
      reflexivity.
Qed.

Lemma X13_witness :
  let s := process_with (options_with 4 None 0) ∅ in
  exists s',
    check_options s = (Return tt, s')
    /\ creator_tag_of_process s' =
       (Return
          (String.append
             (if String.eqb (pdf_renderer (options s)) "auto"
                 || String.eqb (pdf_renderer (options s)) "sandwich"
              then "Tesseract OCR-PDF " else "Tesseract OCR ")
             (version tesseract_4_1_1)),
        s').
Proof.
  cbv zeta.
  apply (X13_creator_tag_after_check
           (process_with (options_with 4 None 0) ∅) tesseract_4_1_1).
  split; reflexivity.
Defined.

(** X14: an error of [version] comes out of both the creator tag and the
    string form of the engine; when [version] returns, the two are the
    same text exactly when the renderer is not 'sandwich'. Neither changes
    the process. *)
Theorem X14_creator_tag_and_str (o : Options) (s : Process) :
  snd (TesseractOcrEngine.creator_tag o s) = s
  /\ snd (TesseractOcrEngine.__str__ s) = s
  /\ (forall e, fst (TesseractOcrEngine.version s) = Raise e ->
      fst (TesseractOcrEngine.creator_tag o s) = Raise e
      /\ fst (TesseractOcrEngine.__str__ s) = Raise e)
  /\ (forall v, fst (TesseractOcrEngine.version s) = Return v ->
      (fst (TesseractOcrEngine.creator_tag o s)
       = fst (TesseractOcrEngine.__str__ s)
       <-> pdf_renderer o <> "sandwich")).
Proof.
  unfold TesseractOcrEngine.creator_tag, TesseractOcrEngine.__str__,
    TesseractOcrEngine.version, tesseract_version, bind, ret.
  destruct (engine s) as [r|]; cbn [fst snd].
  - split; [reflexivity | split; [reflexivity | split; [discriminate|]]].
    intros v _.
    destruct (String.eqb_spec (pdf_renderer o) "sandwich") as [Hs|Hs].
    + split; [intros H; cbn in H; discriminate H | intros H; contradiction].
    + split; [intros _; exact Hs | intros _; reflexivity].
  - split; [reflexivity | split; [reflexivity | split]].
    + intros e H. split; exact H.
    + discriminate.
Qed.

(** ** [add_options] *)

Lemma option_strings_last (p : Argparse.Parser) (g : Argparse.Group) :
  Argparse.option_strings (p ++ [g])
  = Argparse.option_strings p
    ++ map Argparse.option_string (Argparse.arguments g).
Proof.
  unfold Argparse.option_strings.
  rewrite map_app, concat_app. cbn. rewrite app_nil_r. reflexivity.
Qed.

Lemma registered_last (f : string) (p : Argparse.Parser) (g : Argparse.Group) :
  ~ In f (map Argparse.option_string (Argparse.arguments g)) ->
  Argparse.registered f (p ++ [g]) = Argparse.registered f p.
Proof.
  intros Hnot. unfold Argparse.registered.
  rewrite option_strings_last, existsb_app.
  destruct (existsb (String.eqb f)
              (map Argparse.option_string (Argparse.arguments g))) eqn:Hex.
  - apply existsb_exists in Hex as (x & Hin & Heq).
    apply String.eqb_eq in Heq. subst x. contradiction.
  - apply orb_false_r.
Qed.

Lemma add_to_group_last (p : Argparse.Parser) (t d : string)
  (args : list Argparse.Argument) (a : Argparse.Argument) :
  Argparse.add_to_group (length p) a (p ++ [Argparse.mkGroup t d args])
  = p ++ [Argparse.mkGroup t d (args ++ [a])].
Proof.
  induction p as [|g p IH]; cbn; [reflexivity|]. rewrite IH. reflexivity.
Qed.

(** Adding arguments with distinct option strings to the last group of a
    parser: they go in one by one until one is registered with the parser
    already. *)
Lemma add_arguments_last (p : Argparse.Parser) (t d : string)
  (l : list Argparse.Argument) :
  forall pre : list Argparse.Argument,
    List.NoDup (map Argparse.option_string (pre ++ l)) ->
    Argparse.add_arguments (length p) l (p ++ [Argparse.mkGroup t d pre])
    = (option_map
         (fun a => Argparse.conflicting_option_string (Argparse.option_string a))
         (List.find (fun a => Argparse.registered (Argparse.option_string a) p) l),
       p ++ [Argparse.mkGroup t d (pre ++ until_conflict p l)]).
Proof.
  induction l as [|a rest IH]; intros pre Hnd.
  - cbn. rewrite app_nil_r. reflexivity.
  - cbn [Argparse.add_arguments List.find until_conflict].
    unfold Argparse.add_argument.
    rewrite registered_last.
    + destruct (Argparse.registered (Argparse.option_string a) p).
      * cbn. rewrite app_nil_r. reflexivity.
      * rewrite add_to_group_last.
        rewrite IH by (rewrite <- app_assoc; exact Hnd).
        rewrite <- app_assoc. reflexivity.
    + cbn [Argparse.arguments].
      rewrite map_app in Hnd. cbn [map] in Hnd.
      apply List.NoDup_remove_2 in Hnd.
      intros Hin. apply Hnd, in_or_app. left. exact Hin.
Qed.

Lemma tesseract_arguments_distinct :
  List.NoDup (map Argparse.option_string tesseract_arguments).
Proof.
  repeat constructor; cbn; intuition discriminate.
Qed.

Lemma add_options_eq (parser : Argparse.Parser) :
  add_options parser
  = (option_map
       (fun a => Argparse.conflicting_option_string (Argparse.option_string a))
       (List.find
          (fun a => Argparse.registered (Argparse.option_string a) parser)
          tesseract_arguments),
     parser ++ [Argparse.mkGroup "Tesseract" "Advanced control of Tesseract OCR"
                  (until_conflict parser tesseract_arguments)]).
Proof.
  unfold add_options, Argparse.add_argument_group.
  apply (add_arguments_last parser "Tesseract"
           "Advanced control of Tesseract OCR" tesseract_arguments []).
  exact tesseract_arguments_distinct.
Qed.

Lemma find_none_iff {A : Type} (f : A -> bool) (l : list A) :
  List.find f l = None <-> forall a, In a l -> f a = false.
Proof.
  split; [apply List.find_none|].
  induction l as [|a l IH]; intros H; [reflexivity|].
  cbn. rewrite (H a (or_introl eq_refl)). apply IH.
  intros b Hb. apply H. right. exact Hb.
Qed.

Lemma until_conflict_all (p : Argparse.Parser) (l : list Argparse.Argument) :
  (forall a, In a l ->
     Argparse.registered (Argparse.option_string a) p = false) ->
  until_conflict p l = l.
Proof.
  induction l as [|a l IH]; intros H; [reflexivity|].
  cbn. rewrite (H a (or_introl eq_refl)). f_equal. apply IH.
  intros b Hb. apply H. right. exact Hb.
Qed.

(** X15: [add_options] succeeds exactly when none of its seven option
    strings is registered with the parser already; it then leaves the
    groups of the parser as they were and appends one group, 'Tesseract',
    holding the seven arguments in the order of the calls. *)
Theorem X15_add_options_succeeds_iff (parser : Argparse.Parser) :
  (fst (add_options parser) = None
   <-> forall a, In a tesseract_arguments ->
         Argparse.registered (Argparse.option_string a) parser = false)
  /\ (fst (add_options parser) = None ->
      snd (add_options parser) = parser ++ [tesseract_group]).
Proof.
  rewrite add_options_eq. cbn [fst snd].
  assert (option_map
            (fun a => Argparse.conflicting_option_string
                        (Argparse.option_string a))
            (List.find
               (fun a => Argparse.registered (Argparse.option_string a) parser)
               tesseract_arguments) = None
          <-> forall a, In a tesseract_arguments ->
                Argparse.registered (Argparse.option_string a) parser = false)
    as Hiff.
  { rewrite <- find_none_iff.
    destruct (List.find _ tesseract_arguments); cbn; split; congruence. }
  split; [exact Hiff|].
  intros Hnone.
  rewrite (until_conflict_all parser tesseract_arguments (proj1 Hiff Hnone)).
  reflexivity.
Qed.

(** X16: when [add_options] fails, the error names an option string of
    the plugin that the parser had registered before the call. *)
Theorem X16_add_options_conflict
  (parser : Argparse.Parser) (e : Argparse.ArgumentError) :
  fst (add_options parser) = Some e ->
  exists a,
    In a tesseract_arguments
    /\ e = Argparse.conflicting_option_string (Argparse.option_string a)
    /\ Argparse.registered (Argparse.option_string a) parser = true.
Proof.
  rewrite add_options_eq. cbn [fst].
  destruct (List.find _ tesseract_arguments) as [a|] eqn:Hfind;
    [|discriminate].
  intros [= <-]. apply List.find_some in Hfind as [Hin Hreg].
  exists a. auto.
Qed.

Lemma X16_witness :
  exists a,
    In a tesseract_arguments
    /\ Argparse.conflicting_option_string "--user-words"
       = Argparse.conflicting_option_string (Argparse.option_string a)
    /\ Argparse.registered (Argparse.option_string a)
         [Argparse.mkGroup "Other" ""
            [Argparse.mkArgument "--user-words" None Argparse.type_absent
               "FILE" Argparse.default_absent None ""]] = true.
Proof.
  apply (X16_add_options_conflict
           [Argparse.mkGroup "Other" ""
              [Argparse.mkArgument "--user-words" None Argparse.type_absent
                 "FILE" Argparse.default_absent None ""]]
           (Argparse.conflicting_option_string "--user-words")).
  reflexivity.
Defined.

(** X17: [add_options] cannot be applied twice to one parser. After a
    call that succeeded, a second call fails on its first argument,
    '--tesseract-config', and still leaves a second, empty 'Tesseract'
    group behind. *)
Theorem X17_add_options_not_repeatable (parser parser' : Argparse.Parser) :
  add_options parser = (None, parser') ->
  add_options parser'
  = (Some (Argparse.conflicting_option_string "--tesseract-config"),
     parser' ++ [Argparse.mkGroup "Tesseract"
                   "Advanced control of Tesseract OCR" []]).
Proof.
  intros Hrun. rewrite add_options_eq in Hrun.
  apply pair_equal_spec in Hrun as [Hfind Hparser].
  assert (List.find
            (fun a => Argparse.registered (Argparse.option_string a) parser)
            tesseract_arguments = None) as Hnone.
  { destruct (List.find _ tesseract_arguments); [discriminate Hfind|].
    reflexivity. }
  rewrite (until_conflict_all parser tesseract_arguments
             (proj1 (find_none_iff _ _) Hnone)) in Hparser.
  assert (Argparse.registered "--tesseract-config" parser' = true) as Hreg.
  { subst parser'. unfold Argparse.registered.
    rewrite option_strings_last, existsb_app.
    apply orb_true_iff. right. reflexivity. }
  clear Hparser Hfind Hnone.
  rewrite add_options_eq. unfold tesseract_arguments.
  cbn [List.find until_conflict Argparse.option_string].
  rewrite Hreg. reflexivity.
Qed.

Lemma X17_witness :
  add_options [tesseract_group]
  = (Some (Argparse.conflicting_option_string "--tesseract-config"),
     [tesseract_group] ++ [Argparse.mkGroup "Tesseract"
                             "Advanced control of Tesseract OCR" []]).
Proof.
  apply (X17_add_options_not_repeatable [] [tesseract_group]).
  reflexivity.
Defined.

(** ** The hooks in the order the pipeline runs them *)

(** X18: running the option check before the validation pass changes
    neither the outcome of the pass nor the environment it leaves, and the
    pass keeps the options that the check decided. *)
Theorem X18_check_then_validate
  (Page : Type) (pdfinfo : list Page) (s : Process)
  (r : EngineCapabilityReport) :
  engine_accepted s r ->
  let s1 := snd (check_options s) in
  bind check_options (fun _ => validate pdfinfo) s = validate pdfinfo s1
  /\ fst (validate pdfinfo s1) = fst (validate pdfinfo s)
  /\ environ (snd (validate pdfinfo s1)) = environ (snd (validate pdfinfo s))
  /\ options (snd (validate pdfinfo s1)) = options s1.
Proof.
  intros Hacc. cbv zeta.
  pose proof (check_options_accepted s r Hacc) as Hrun.
  unfold bind at 1. rewrite Hrun. cbn [snd].
  match goal with |- context [mkProcess ?o ?e ?l ?g] =>
    set (s1 := mkProcess o e l g) end.
  assert (override s1 = override s) as Hov by reflexivity.
  assert (environ s1 = environ s) as Henv by reflexivity.
  assert (jobs (options s1) = jobs (options s)) as Hjobs.
  { cbn [s1 options]. destruct (String.eqb _ _); reflexivity. }
  split; [reflexivity|].
  destruct (validate_cases pdfinfo s)
    as [(v & b & Hv & Hnum & Hint & H) | [(v & Hv & Hnum & Hint & H)
        | [(Hnum & Hnil & H) | (Hnum & Hne & H)]]]; rewrite H; cbn [fst snd].
  - rewrite <- Hov in Hv.
    rewrite (validate_adopts pdfinfo s1 v Hv Hnum), Hint.
    split; [reflexivity | split; [exact Henv | reflexivity]].
  - rewrite <- Hov in Hv.
    rewrite (validate_adopts pdfinfo s1 v Hv Hnum), Hint.
    split; [reflexivity | split; [exact Henv | reflexivity]].
  - subst pdfinfo.
    rewrite validate_zero_pages by (rewrite Hov; exact Hnum).
    split; [reflexivity | split; [exact Henv | reflexivity]].
  - rewrite validate_computes;
      [| rewrite Hov; exact Hnum | destruct pdfinfo; [congruence|discriminate]].
    cbn [fst snd published environ options]. rewrite Hjobs, Henv.
    split; [reflexivity | split; reflexivity].
Qed.

Lemma X18_witness :
  let s := fresh 4 in
  let s1 := snd (check_options s) in
  bind check_options (fun _ => validate (pages 2)) s = validate (pages 2) s1
  /\ fst (validate (pages 2) s1) = fst (validate (pages 2) s)
  /\ environ (snd (validate (pages 2) s1))
     = environ (snd (validate (pages 2) s))
  /\ options (snd (validate (pages 2) s1)) = options s1.
Proof.
  cbv zeta.
  apply (X18_check_then_validate unit (pages 2) (fresh 4) tesseract_4_1_1).
  split; reflexivity.
Defined.
